(** * Bird classifier script (openai.py): shallow embedding and properties

    The script opens an image file, hands it to
    [openai.ChatCompletion.create] together with two fixed prompts, pulls
    one string out of the reply and prints it.  The embedding threads an
    explicit [World] (file system, the [openai.api_key] module attribute,
    the descriptors in use and a trace of observable events) through a
    small state-and-exception monad. *)

From Stdlib Require Import ZArith String Ascii.
From stdpp Require Import base option list gmap strings.

#[local] Set Warnings "-register-all".
Local Open Scope string_scope.
Local Open Scope list_scope.

(** ** Python values of a JSON-shaped response

    The values a decoded JSON document is made of: null, booleans,
    integers, strings, lists, and dictionaries keyed by strings.  Tuples
    and dictionaries with keys that are not strings are outside this
    type, and so outside every statement below. *)

Inductive PyVal : Type :=
| PNone
| PBool (b : bool)
| PInt (n : Z)
| PStr (s : string)
| PList (items : list PyVal)
| PDict (fields : list (string * PyVal)).

(** The two forms of subscript the script writes: [x["name"]] and [x[0]]. *)
Inductive Key : Type :=
| KStr (s : string)
| KInt (i : Z).

(** Errors of the client library (the classes of [openai.error]). *)
Inductive OpenAIError : Type :=
| APIError
| APIConnectionError
| Timeout
| AuthenticationError
| RateLimitError
| InvalidRequestError
| ServiceUnavailableError.

(** Python exceptions that can leave the script.  [OSError] stands for an
    instance of the base class itself or of a subclass not listed here,
    as [open] raises for the error numbers the listed classes do not
    cover. *)
Inductive PyExn : Type :=
| FileNotFoundError (path : string)
| PermissionError (path : string)
| IsADirectoryError (path : string)
| NotADirectoryError (path : string)
| OSError (path : string)
| ValueError
| AttributeError (attr : string)
| OpenAIException (e : OpenAIError)
| KeyError (k : Key)
| IndexError
| TypeError.


(** The error taxonomy of the specification, read over Python's exception
    classes: the [OSError]s [open] raises, what the client library raises,
    and what the subscripts of the extraction raise.  [Unclassified] is
    for the exceptions the taxonomy has no kind for. *)
Inductive ErrorKind : Type :=
| FileNotFound
| RemoteServiceError
| MalformedResponse
| Unclassified.

Definition error_kind (e : PyExn) : ErrorKind :=
  match e with
  | FileNotFoundError _ | PermissionError _ | IsADirectoryError _
  | NotADirectoryError _ | OSError _ => FileNotFound
  | OpenAIException _ => RemoteServiceError
  | KeyError _ | IndexError | TypeError => MalformedResponse
  | ValueError | AttributeError _ => Unclassified
  end.

Inductive Result (A : Type) : Type :=
| Return (a : A)
| Raise (e : PyExn).
Arguments Return {A} a.
Arguments Raise {A} e.

(** ** Subscripting *)

(** [seq[i]] for a Python sequence: indices count from the end when
    negative, and anything outside [-len, len) is out of range. *)
Definition py_index {A : Type} (l : list A) (i : Z) : option A :=
  let n := Z.of_nat (length l) in
  if (0 <=? i)%Z then l !! Z.to_nat i
  else if (- n <=? i)%Z then l !! Z.to_nat (n + i)
  else None.

Fixpoint dict_get (fields : list (string * PyVal)) (k : string) : option PyVal :=
  match fields with
  | [] => None
  | (k', v) :: rest => if String.eqb k' k then Some v else dict_get rest k
  end.

(** [v[k]] on a JSON-shaped value: dictionaries are keyed by strings, so
    an integer is never among their keys; lists and strings are indexed
    by integers; nothing else is subscriptable. *)
Definition py_getitem (v : PyVal) (k : Key) : Result PyVal :=
  match v, k with
  | PDict fields, KStr s =>
      match dict_get fields s with
      | Some x => Return x
      | None => Raise (KeyError k)
      end
  | PDict _, KInt _ => Raise (KeyError k)
  | PList items, KInt i =>
      match py_index items i with
      | Some x => Return x
      | None => Raise IndexError
      end
  | PList _, KStr _ => Raise TypeError
  | PStr s, KInt i =>
      match py_index (list_ascii_of_string s) i with
      | Some c => Return (PStr (String c EmptyString))
      | None => Raise IndexError
      end
  | PStr _, KStr _ => Raise TypeError
  | (PNone | PBool _ | PInt _), _ => Raise TypeError
  end.

Definition has_field (v : PyVal) (k : string) : bool :=
  match v with
  | PDict fields => bool_decide (is_Some (dict_get fields k))
  | _ => false
  end.

(** ** The world the script runs in *)

(** The error numbers the operating system answers an open for reading
    with; [EOTHER] stands for every one not listed (a name too long, too
    many links, too many open files, ...). *)
Inductive Errno : Type :=
| ENOENT
| EACCES
| EPERM
| EISDIR
| ENOTDIR
| EOTHER.

(** The answer of the operating system to an open for reading. *)
Inductive SysOpen : Type :=
| Opened (data : list Byte.byte)
| Refused (err : Errno).

(** What [open(path, "rb")] finds at a path.  [NotAPath] is a name that
    never reaches the operating system. *)
Inductive FileEntry : Type :=
| Readable (data : list Byte.byte)
| Missing
| Forbidden
| Directory
| NotDirectory
| Unavailable
| NotAPath.

(** An open binary file object: its descriptor, name, mode and the bytes
    a reader gets from it. *)
Record FileObject : Type := mkFile {
  fo_fd : nat;
  fo_name : string;
  fo_mode : string;
  fo_data : list Byte.byte
}.

Record ChatMessage : Type := mkMessage {
  role : string;
  content : string
}.

(** The keyword arguments of [openai.ChatCompletion.create]. *)
Record ChatRequest : Type := mkRequest {
  model : string;
  messages : list ChatMessage;
  files : list (string * FileObject)
}.

(** One call of the client library: the request and the credential the
    library authenticates it with, which is [openai.api_key] as it stands
    at the call since the script passes no [api_key] argument. *)
Record Submission : Type := mkSubmission {
  sub_key : option string;
  sub_request : ChatRequest
}.

Inductive Reply : Type :=
| Replied (response : PyVal)
| Failed (e : OpenAIError).

Inductive Event : Type :=
| EvSetKey (k : string)
| EvOpen (f : FileObject)
| EvOpenFail (path : string) (e : PyExn)
| EvSubmit (s : Submission)
| EvClose (fd : nat)
| EvWrite (text : string).

Record World : Type := mkWorld {
  disk : string -> SysOpen;
  api_key : option string;
  open_fds : gset nat;
  trace : list Event
}.

Fixpoint has_nul (s : string) : bool :=
  match s with
  | EmptyString => false
  | String c rest => Ascii.eqb c "000"%char || has_nul rest
  end.

(** What [open(path, "rb")] finds at [path] in [w].  A name holding a
    NUL character is rejected before the operating system is asked;
    for any other name the operating system answers, and its error
    number decides the entry. *)
Definition fs (w : World) (path : string) : FileEntry :=
  if has_nul path then NotAPath
  else match disk w path with
       | Opened data => Readable data
       | Refused ENOENT => Missing
       | Refused (EACCES | EPERM) => Forbidden
       | Refused EISDIR => Directory
       | Refused ENOTDIR => NotDirectory
       | Refused EOTHER => Unavailable
       end.

Definition log (ev : Event) (w : World) : World :=
  mkWorld (disk w) (api_key w) (open_fds w) (trace w ++ [ev]).

(** ** Reading a trace *)

Definition submissions (evs : list Event) : list Submission :=
  omap (fun ev => match ev with EvSubmit s => Some s | _ => None end) evs.

Definition key_assignments (evs : list Event) : list string :=
  omap (fun ev => match ev with EvSetKey k => Some k | _ => None end) evs.

Definition open_attempts (evs : list Event) : list string :=
  omap (fun ev => match ev with
                  | EvOpen f => Some (fo_name f)
                  | EvOpenFail p _ => Some p
                  | _ => None
                  end) evs.

(** Everything written to standard output, in order. *)
Fixpoint stdout_of (evs : list Event) : string :=
  match evs with
  | [] => ""
  | EvWrite text :: rest => text +:+ stdout_of rest
  | _ :: rest => stdout_of rest
  end.

(** Descriptors opened along a trace and not closed by its end. *)
Fixpoint leaked_from (held : gset nat) (evs : list Event) : gset nat :=
  match evs with
  | [] => held
  | EvOpen f :: rest => leaked_from ({[fo_fd f]} ∪ held) rest
  | EvClose fd :: rest => leaked_from (held ∖ {[fd]}) rest
  | _ :: rest => leaked_from held rest
  end.

Definition leaked (evs : list Event) : gset nat := leaked_from ∅ evs.

(** The events a run from [w] to [w'] added. *)
Definition emitted (w w' : World) : list Event :=
  drop (length (trace w)) (trace w').

(** The lines of a text, each ended by a line feed; a last line without
    one counts as well. *)
Fixpoint lines_from (cur : string) (s : string) : list string :=
  match s with
  | EmptyString => match cur with EmptyString => [] | _ => [cur] end
  | String c rest =>
      if Ascii.eqb c "010"%char then cur :: lines_from "" rest
      else lines_from (cur +:+ String c EmptyString) rest
  end.

Definition lines (s : string) : list string := lines_from "" s.

Fixpoint has_newline (s : string) : bool :=
  match s with
  | EmptyString => false
  | String c rest => Ascii.eqb c "010"%char || has_newline rest
  end.

(** ** The monad: state passing with exceptions *)

Definition M (A : Type) : Type := World -> Result A * World.

Definition ret {A : Type} (a : A) : M A := fun w => (Return a, w).

Definition raise {A : Type} (e : PyExn) : M A := fun w => (Raise e, w).

Definition bind {A B : Type} (c : M A) (k : A -> M B) : M B :=
  fun w =>
    match c w with
    | (Return a, w1) => k a w1
    | (Raise e, w1) => (Raise e, w1)
    end.

Definition lift {A : Type} (r : Result A) : M A := fun w => (r, w).

Declare Scope py_scope.
Delimit Scope py_scope with py.
Notation "x <- c ;; k" := (bind c (fun x => k))
  (at level 100, c at next level, right associativity) : py_scope.
Notation "c ;;; k" := (bind c (fun _ => k))
  (at level 100, right associativity) : py_scope.

Local Open Scope py_scope.

(** ** Primitives *)

Definition readable (entry : FileEntry) : bool :=
  match entry with
  | Readable _ => true
  | _ => false
  end.

(** The exception [open] raises for an entry it cannot read: the class
    Python has for the error number, [OSError] itself where it has none,
    and [ValueError] for a name holding a NUL character. *)
Definition open_error (entry : FileEntry) (path : string) : PyExn :=
  match entry with
  | Forbidden => PermissionError path
  | Directory => IsADirectoryError path
  | NotDirectory => NotADirectoryError path
  | Unavailable => OSError path
  | NotAPath => ValueError
  | _ => FileNotFoundError path
  end.

(** The file object [open(path, "rb")] builds in [w] for a file holding
    [data].  Its descriptor is one not in use, a function of the set of
    descriptors in use. *)
Definition opened_file (w : World) (path : string) (data : list Byte.byte)
  : FileObject :=
  mkFile (fresh (open_fds w)) path "rb" data.

(** [open(path, "rb")] *)
Definition open_rb (path : string) : M FileObject := fun w =>
  match fs w path with
  | Readable data =>
      let f := opened_file w path data in
      (Return f,
       mkWorld (disk w) (api_key w) ({[fo_fd f]} ∪ open_fds w)
               (trace w ++ [EvOpen f]))
  | entry =>
      (Raise (open_error entry path),
       log (EvOpenFail path (open_error entry path)) w)
  end.

Definition file_close (f : FileObject) : M unit := fun w =>
  (Return tt,
   mkWorld (disk w) (api_key w) (open_fds w ∖ {[fo_fd f]})
           (trace w ++ [EvClose (fo_fd f)])).

(** [with open(path, "rb") as f: body].  When [open] raises nothing was
    acquired.  Otherwise the file is closed when the body is left, by a
    return or by an exception alike, and the body's outcome stands. *)
Definition with_open_rb {A : Type} (path : string) (body : FileObject -> M A)
  : M A := fun w =>
  match open_rb path w with
  | (Raise e, w1) => (Raise e, w1)
  | (Return f, w1) =>
      let '(r, w2) := body f w1 in
      let '(_, w3) := file_close f w2 in
      (r, w3)
  end.

(** [openai.api_key = k] *)
Definition set_api_key (k : string) : M unit := fun w =>
  (Return tt,
   mkWorld (disk w) (Some k) (open_fds w) (trace w ++ [EvSetKey k])).

Definition write_stdout (text : string) : M unit := fun w =>
  (Return tt, log (EvWrite text) w).

Fixpoint join (sep : string) (parts : list string) : string :=
  match parts with
  | [] => ""
  | [p] => p
  | p :: rest => p +:+ sep +:+ join sep rest
  end.

Section Program.

(** The remote service behind [openai.ChatCompletion.create]: its answer
    to a request may depend on the requests it has seen before. *)
Variable create : list Submission -> option string -> ChatRequest -> Reply.

(** [repr] of the values that are not strings. *)
Variable repr : PyVal -> string.

Definition py_str (v : PyVal) : string :=
  match v with
  | PStr s => s
  | other => repr other
  end.

(** [print(a, b, ...)]: the arguments' [str], separated by one space,
    ended by a line feed. *)
Definition py_print (args : list PyVal) : M unit :=
  write_stdout (join " " (map py_str args) +:+ String "010"%char EmptyString).

Definition ChatCompletion_create (req : ChatRequest) : M PyVal := fun w =>
  let w' := log (EvSubmit (mkSubmission (api_key w) req)) w in
  match create (submissions (trace w)) (api_key w) req with
  | Replied response => (Return response, w')
  | Failed e => (Raise (OpenAIException e), w')
  end.

Definition bird_request (image_file : FileObject) : ChatRequest :=
  mkRequest "gpt-4-turbo"
    [ mkMessage "system" "You are a bird species identification assistant.";
      mkMessage "user" "Identify the bird in this image." ]
    [ ("image", image_file) ].

(** [response["choices"][0]["message"]["content"]] *)
Definition extract (response : PyVal) : Result PyVal :=
  match py_getitem response (KStr "choices") with
  | Raise e => Raise e
  | Return choices =>
      match py_getitem choices (KInt 0) with
      | Raise e => Raise e
      | Return first =>
          match py_getitem first (KStr "message") with
          | Raise e => Raise e
          | Return message => py_getitem message (KStr "content")
          end
      end
  end.

(** What a reply of the service becomes once the call has come back and
    the extraction has run: the extracted value, or the exception of
    the client library. *)
Definition outcome_of (reply : Reply) : Result PyVal :=
  match reply with
  | Replied response => extract response
  | Failed e => Raise (OpenAIException e)
  end.

Definition classify_bird (image_path : string) : M PyVal :=
  response <- with_open_rb image_path
                (fun image_file => ChatCompletion_create (bird_request image_file)) ;;
  lift (extract response).

(** Lines 3-18 with [openai] bound to the client library; [dunder_name]
    is the value of [__name__], which is ["__main__"] when the file is
    run and the module's name when it is imported.  The file never reads
    it.  Line 1 and what it binds are the matter of [load_file] below. *)
Definition module_body (dunder_name : string) : M unit :=
  set_api_key "your_openai_api_key" ;;;
  bird_species <- classify_bird "bird_image.jpg" ;;
  py_print [PStr "Identified Bird:"; bird_species].

(** *** Line 1: what [openai] names

    [import openai] binds the name to the first module called [openai]
    on the search path.  That is the client library, or, when the
    directory of this file comes first as it does when the file is run as
    a script, the file itself, which is called [openai.py]. *)
Inductive Binding : Type :=
| ClientLibrary
| ThisFile.

(** [openai.ChatCompletion.create(...)] under a binding.  The attribute
    [ChatCompletion] is looked up before the arguments are evaluated;
    the client library has it, this file defines no such name. *)
Definition call_create (binding : Binding) (req : ChatRequest) : M PyVal :=
  match binding with
  | ClientLibrary => ChatCompletion_create req
  | ThisFile => raise (AttributeError "ChatCompletion")
  end.

(** Lines 5-15 under a binding. *)
Definition classify_bird_bound (binding : Binding) (image_path : string)
  : M PyVal :=
  response <- with_open_rb image_path
                (fun image_file => call_create binding (bird_request image_file)) ;;
  lift (extract response).

(** Lines 3-18 under a binding. *)
Definition file_body (binding : Binding) (dunder_name : string) : M unit :=
  set_api_key "your_openai_api_key" ;;;
  bird_species <- classify_bird_bound binding "bird_image.jpg" ;;
  py_print [PStr "Identified Bird:"; bird_species].

(** Loading the file, line 1 included.  When [openai] is the client
    library, line 1 only binds the name.  When it is this file and the
    file is loaded under another name ([__main__] for a script), line 1
    first runs the file as the module [openai], in which line 1 finds the
    module being loaded and binds it; only if that run ends normally do
    lines 3-18 of the outer file run.  When the file is itself being
    loaded as [openai], line 1 finds it at once. *)
Definition load_file (binding : Binding) (dunder_name : string) : M unit :=
  match binding with
  | ClientLibrary => file_body ClientLibrary dunder_name
  | ThisFile =>
      if String.eqb dunder_name "openai" then file_body ThisFile dunder_name
      else file_body ThisFile "openai" ;;; file_body ThisFile dunder_name
  end.

End Program.

(** A deterministic service: its answer to a request does not depend on
    what it has seen before. *)
Definition deterministic
  (create : list Submission -> option string -> ChatRequest -> Reply) : Prop :=
  forall (seen seen' : list Submission) (key : option string) (req : ChatRequest),
    create seen key req = create seen' key req.

(** The world after the first statement of the module, [openai.api_key = ...]. *)
Definition keyed (w : World) : World :=
  snd (set_api_key "your_openai_api_key" w).

(** Whether a value is a Python list. *)
Definition is_list (v : PyVal) : bool :=
  match v with
  | PList _ => true
  | _ => false
  end.

(** The request [classify_bird] sends from [w] for a file holding [data],
    as the client library records it. *)
Definition sent_request (w : World) (path : string) (data : list Byte.byte)
  : Submission :=
  mkSubmission (api_key w) (bird_request (opened_file w path data)).

(** ** Sample worlds and stub services *)

Definition line_feed : string := String "010"%char EmptyString.

Definition sample_bytes : list Byte.byte := [Byte.xff; Byte.xd8; Byte.xff; Byte.xe0].

Definition sample_fs (path : string) : SysOpen :=
  if String.eqb path "bird_image.jpg" then Opened sample_bytes
  else if String.eqb path "/" then Refused EISDIR
  else if String.eqb path "/etc/shadow" then Refused EACCES
  else Refused ENOENT.

Definition sample_world : World := mkWorld sample_fs None ∅ [].

Definition choice_with (text : string) : PyVal :=
  PDict [ ("index", PInt 0);
          ("message", PDict [("role", PStr "assistant"); ("content", PStr text)]);
          ("finish_reason", PStr "stop") ].

Definition reply_with (choices : list PyVal) : PyVal :=
  PDict [ ("id", PStr "chatcmpl-1");
          ("object", PStr "chat.completion");
          ("choices", PList choices) ].

Definition stub_reply (response : PyVal)
  : list Submission -> option string -> ChatRequest -> Reply :=
  fun _ _ _ => Replied response.

Definition stub_offline
  : list Submission -> option string -> ChatRequest -> Reply :=
  fun _ _ _ => Failed APIConnectionError.

(** A service that answers its first request differently from later ones. *)
Definition stub_moody
  : list Submission -> option string -> ChatRequest -> Reply :=
  fun seen _ _ =>
    match seen with
    | [] => Replied (reply_with [choice_with "Northern Cardinal"])
    | _ => Replied (reply_with [choice_with "Blue Jay"])
    end.

Definition sample_repr (v : PyVal) : string :=
  match v with
  | PNone => "None"
  | PBool true => "True"
  | PBool false => "False"
  | _ => "<object>"
  end.

Definition two_line_text : string := "Robin" +:+ line_feed +:+ "or Wren".

(** A world without any file. *)
Definition bare_world : World := mkWorld (fun _ => Refused ENOENT) None ∅ [].


(** A reply whose first choice has a message without text, as the service
    gives when the content is null. *)
Definition reply_null_content : PyVal :=
  reply_with [PDict [("message", PDict [("role", PStr "assistant"); ("content", PNone)])]].

(** A reply that holds an error object and no choices. *)
Definition reply_error_object : PyVal :=
  PDict [("error", PDict [("message", PStr "model overloaded")])].

(** A reply whose choices are keyed by position instead of listed. *)
Definition reply_keyed_choices : PyVal :=
  PDict [("choices", PDict [("0", choice_with "Northern Cardinal")])].

(** * Properties *)

(** ** Traces *)

Lemma submissions_app (l k : list Event) :
  submissions (l ++ k) = submissions l ++ submissions k.
Proof. apply omap_app. Qed.

Lemma emitted_app (w w' : World) (evs : list Event) :
  trace w' = trace w ++ evs -> emitted w w' = evs.
Proof. intros H. unfold emitted. rewrite H. apply drop_app_length. Qed.

Lemma close_after_open (fd : nat) (held : gset nat) :
  fd ∉ held -> ({[fd]} ∪ held) ∖ {[fd]} = held.
Proof.
  intros Hfresh. apply set_eq. intros x.
  rewrite elem_of_difference, elem_of_union, elem_of_singleton.
  split; [tauto|]. intros Hx. split; [tauto|]. congruence.
Qed.

(** ** Lines of a text *)

Lemma append_cons (c : ascii) (s t : string) :
  String c s +:+ t = String c (s +:+ t).
Proof. reflexivity. Qed.

Lemma append_assoc (s t u : string) : (s +:+ t) +:+ u = s +:+ (t +:+ u).
Proof.
  induction s as [|c s IH]; [reflexivity|].
  rewrite !append_cons. now rewrite IH.
Qed.

Lemma append_empty_r (s : string) : s +:+ "" = s.
Proof.
  induction s as [|c s IH]; [reflexivity|].
  rewrite append_cons. now rewrite IH.
Qed.

Lemma has_newline_app (s t : string) :
  has_newline (s +:+ t) = has_newline s || has_newline t.
Proof.
  induction s as [|c s IH]; [reflexivity|].
  rewrite append_cons. cbn [has_newline]. rewrite IH. apply orb_assoc.
Qed.

Lemma lines_from_single (t cur : string) :
  has_newline t = false ->
  lines_from cur (t +:+ line_feed) = [cur +:+ t].
Proof.
  revert cur. induction t as [|c t IH]; intros cur Hnl.
  - rewrite append_empty_r. reflexivity.
  - cbn [has_newline] in Hnl. apply orb_false_iff in Hnl as [Hc Ht].
    rewrite append_cons. cbn [lines_from]. rewrite Hc.
    rewrite (IH _ Ht), append_assoc. reflexivity.
Qed.

Lemma lines_single (t : string) :
  has_newline t = false -> lines (t +:+ line_feed) = [t].
Proof. intros H. unfold lines. now rewrite lines_from_single. Qed.

(** ** Subscripts *)

Lemma getitem_without_field (v : PyVal) (k : string) :
  has_field v k = false ->
  py_getitem v (KStr k) = Raise (KeyError (KStr k))
  \/ py_getitem v (KStr k) = Raise TypeError.
Proof.
  destruct v as [| | | |items|fields]; simpl; intros H; auto.
  left. destruct (dict_get fields k) eqn:E; [|reflexivity].
  apply bool_decide_eq_false in H. destruct H. eauto.
Qed.

Lemma getitem_first {A : Type} (x : A) (rest : list A) :
  py_index (x :: rest) 0 = Some x.
Proof. reflexivity. Qed.

Section ProgramFacts.

Variable create : list Submission -> option string -> ChatRequest -> Reply.
Variable repr : PyVal -> string.

(** [classify_bird] on a path that opens: one request between the open
    and the close, and a world that differs in its trace only. *)
Lemma classify_bird_readable (w : World) (path : string) (data : list Byte.byte) :
  fs w path = Readable data ->
  let f := opened_file w path data in
  classify_bird create path w =
    (outcome_of (create (submissions (trace w)) (api_key w) (bird_request f)),
     mkWorld (disk w) (api_key w) (open_fds w)
       (trace w ++ [ EvOpen f;
                     EvSubmit (mkSubmission (api_key w) (bird_request f));
                     EvClose (fo_fd f) ])).
Proof.
  intros Hfs f.
  unfold classify_bird, bind, with_open_rb, open_rb. rewrite Hfs.
  fold f. unfold ChatCompletion_create, file_close, log, lift. cbn [trace api_key disk open_fds].
  rewrite submissions_app. cbn [submissions omap list_omap]. rewrite app_nil_r.
  assert (Hfd : fo_fd f ∉ open_fds w) by apply is_fresh.
  destruct (create _ _ _) as [response|e];
    cbn [trace api_key disk open_fds outcome_of];
    rewrite (close_after_open _ _ Hfd), <- !app_assoc; reflexivity.
Qed.

(** [classify_bird] on a path that does not open. *)
Lemma classify_bird_unreadable (w : World) (path : string) :
  readable (fs w path) = false ->
  classify_bird create path w =
    (Raise (open_error (fs w path) path),
     log (EvOpenFail path (open_error (fs w path) path)) w).
Proof.
  intros Hfs.
  unfold classify_bird, bind, with_open_rb, open_rb.
  destruct (fs w path); [discriminate|reflexivity..].
Qed.

(** A name holding a NUL character is never found, whatever the
    operating system holds. *)
Lemma fs_nul_path (w : World) (path : string) :
  has_nul path = true -> fs w path = NotAPath.
Proof. intros H. unfold fs. now rewrite H. Qed.


Lemma readable_inv (entry : FileEntry) :
  readable entry = true -> exists data, entry = Readable data.
Proof. destruct entry; [eauto|discriminate..]. Qed.

End ProgramFacts.

(** ** Events of a run *)

Lemma stdout_of_app (l k : list Event) :
  stdout_of (l ++ k) = stdout_of l +:+ stdout_of k.
Proof.
  induction l as [|ev l IH]; [reflexivity|].
  destruct ev; cbn [app stdout_of]; rewrite IH; try reflexivity.
  symmetry. apply append_assoc.
Qed.

Section Claims.

Variable create : list Submission -> option string -> ChatRequest -> Reply.
Variable repr : PyVal -> string.

(** The events [classify_bird] adds, whatever the outcome: one attempt
    to open the path, at most one request, which carries the key of the
    world it started in, no key assignment, nothing printed, and no
    descriptor left open. *)
Lemma classify_bird_events (w : World) (path : string) :
  let w' := snd (classify_bird create path w) in
  exists evs,
    trace w' = trace w ++ evs
    /\ fs w' = fs w /\ api_key w' = api_key w /\ open_fds w' = open_fds w
    /\ open_attempts evs = [path]
    /\ key_assignments evs = []
    /\ stdout_of evs = ""
    /\ leaked evs = ∅
    /\ length (submissions evs) = (if readable (fs w path) then 1 else 0)
    /\ Forall (fun s => sub_key s = api_key w) (submissions evs).
Proof.
  destruct (readable (fs w path)) eqn:Hr.
  - destruct (readable_inv _ Hr) as [data Hfs].
    rewrite (classify_bird_readable create w path data Hfs). cbn [snd].
    eexists. split; [reflexivity|]. cbn.
    repeat split; try reflexivity.
    + apply close_after_open, not_elem_of_empty.
    + repeat constructor.
  - rewrite (classify_bird_unreadable create w path Hr). cbn [snd].
    eexists. split; [reflexivity|]. cbn.
    repeat split; try reflexivity. constructor.
Qed.

(** The module body in terms of the one call it makes. *)
Lemma module_body_run (name : string) (w : World) :
  module_body create repr name w =
    match classify_bird create "bird_image.jpg" (keyed w) with
    | (Return v, w2) =>
        (Return tt,
         log (EvWrite ("Identified Bird: " +:+ py_str repr v +:+ line_feed)) w2)
    | (Raise e, w2) => (Raise e, w2)
    end.
Proof.
  unfold module_body, bind, keyed. cbn [set_api_key snd].
  destruct (classify_bird _ _ _) as [[v|e] w2]; reflexivity.
Qed.

(** The events of the module body: the key assignment, the events of
    the call, and the printed line when the call returned. *)
Lemma module_body_events (name : string) (w : World) :
  let run := classify_bird create "bird_image.jpg" (keyed w) in
  let w' := snd (module_body create repr name w) in
  exists evs,
    emitted w w'
    = EvSetKey "your_openai_api_key" :: evs
      ++ match fst run with
         | Return v =>
             [EvWrite ("Identified Bird: " +:+ py_str repr v +:+ line_feed)]
         | Raise _ => []
         end
    /\ api_key w' = Some "your_openai_api_key"
    /\ open_attempts evs = ["bird_image.jpg"]
    /\ key_assignments evs = []
    /\ stdout_of evs = ""
    /\ length (submissions evs)
       = (if readable (fs w "bird_image.jpg") then 1 else 0)
    /\ Forall (fun s => sub_key s = Some "your_openai_api_key") (submissions evs).
Proof.
  intros run w'. subst run w'. rewrite module_body_run.
  destruct (classify_bird_events (keyed w) "bird_image.jpg")
    as (evs & Htr & _ & Hkey & _ & Hopen & Hassign & Hout & _ & Hlen & Hsub).
  exists evs.
  destruct (classify_bird create "bird_image.jpg" (keyed w)) as [[v|e] w2];
    cbn [fst snd] in *;
    (split; [apply emitted_app
            |repeat split;
             first [exact Hkey|exact Hopen|exact Hassign|exact Hout
                   |exact Hlen|exact Hsub]]).
  - unfold log. cbn [trace]. rewrite Htr. unfold keyed. cbn [set_api_key snd trace].
    rewrite <- !app_assoc. reflexivity.
  - rewrite Htr. unfold keyed. cbn [set_api_key snd trace].
    rewrite app_nil_r, <- !app_assoc. reflexivity.
Qed.

(** ** The result of [classify_bird] *)

(** C1: when the file opens and the service answers with a response whose
    choices start with a choice whose message has the text content
    [text], [classify_bird] returns exactly [text]. *)
Theorem classify_bird_returns_first_content
  (w : World) (path : string) (data : list Byte.byte)
  (response first message : PyVal) (rest : list PyVal) (text : string) :
  fs w path = Readable data ->
  create (submissions (trace w)) (api_key w)
         (bird_request (opened_file w path data)) = Replied response ->
  py_getitem response (KStr "choices") = Return (PList (first :: rest)) ->
  py_getitem first (KStr "message") = Return message ->
  py_getitem message (KStr "content") = Return (PStr text) ->
  fst (classify_bird create path w) = Return (PStr text).
Proof.
  intros Hfs Hreply Hchoices Hmessage Hcontent.
  rewrite (classify_bird_readable create w path data Hfs). cbn [fst].
  rewrite Hreply. unfold outcome_of, extract.
  rewrite Hchoices. cbn [py_getitem]. rewrite getitem_first.
  rewrite Hmessage. exact Hcontent.
Qed.

(** C2: when the file opens and the service answers with a response whose
    choices are an empty list, [classify_bird] returns nothing: the
    subscript [[0]] raises [IndexError], an error of the malformed
    response kind. *)
Theorem classify_bird_no_choices
  (w : World) (path : string) (data : list Byte.byte) (response : PyVal) :
  fs w path = Readable data ->
  create (submissions (trace w)) (api_key w)
         (bird_request (opened_file w path data)) = Replied response ->
  py_getitem response (KStr "choices") = Return (PList []) ->
  fst (classify_bird create path w) = Raise IndexError
  /\ error_kind IndexError = MalformedResponse.
Proof.
  intros Hfs Hreply Hchoices. split; [|reflexivity].
  rewrite (classify_bird_readable create w path data Hfs). cbn [fst].
  rewrite Hreply. unfold outcome_of, extract.
  rewrite Hchoices. reflexivity.
Qed.

(** C9: a first choice is not enough.  When the first choice has no
    ["message"] field, or its message has no ["content"] field,
    [classify_bird] raises from the subscript ([KeyError] on a
    dictionary, [TypeError] on anything else). *)
Theorem classify_bird_missing_message_or_content
  (w : World) (path : string) (data : list Byte.byte)
  (response first : PyVal) (rest : list PyVal) :
  fs w path = Readable data ->
  create (submissions (trace w)) (api_key w)
         (bird_request (opened_file w path data)) = Replied response ->
  py_getitem response (KStr "choices") = Return (PList (first :: rest)) ->
  (has_field first "message" = false
   \/ exists message, py_getitem first (KStr "message") = Return message
                      /\ has_field message "content" = false) ->
  exists e, fst (classify_bird create path w) = Raise e
            /\ (e = KeyError (KStr "message")
                \/ e = KeyError (KStr "content")
                \/ e = TypeError).
Proof.
  intros Hfs Hreply Hchoices Hlack.
  rewrite (classify_bird_readable create w path data Hfs). cbn [fst].
  rewrite Hreply. unfold outcome_of, extract.
  rewrite Hchoices. cbn [py_getitem]. rewrite getitem_first.
  destruct Hlack as [Hmsg|[message [Hmsg Hcontent]]].
  - destruct (getitem_without_field _ _ Hmsg) as [-> | ->]; eauto.
  - rewrite Hmsg.
    destruct (getitem_without_field _ _ Hcontent) as [-> | ->]; eauto 6.
Qed.

(** ** Failure to open *)


(** ** The file handle *)

(** C4: whatever the path, the world and the service, the descriptors in
    use after [classify_bird] are those in use before it, and every
    descriptor opened along the run has been closed by its end. *)
Theorem classify_bird_releases_handle (w : World) (path : string) :
  let w' := snd (classify_bird create path w) in
  open_fds w' = open_fds w
  /\ leaked (emitted w w') = ∅
  /\ Forall (fun ev => match ev with
                       | EvOpen f => EvClose (fo_fd f) ∈ emitted w w'
                       | _ => True
                       end) (emitted w w').
Proof.
  intros w'. subst w'.
  destruct (readable (fs w path)) eqn:Hr.
  - destruct (readable_inv _ Hr) as [data Hfs].
    rewrite (classify_bird_readable create w path data Hfs). cbn [snd].
    erewrite emitted_app by reflexivity. cbn [open_fds].
    split; [reflexivity|]. split.
    + apply close_after_open, not_elem_of_empty.
    + repeat constructor.
  - rewrite (classify_bird_unreadable create w path Hr). cbn [snd].
    erewrite emitted_app by reflexivity.
    split; [reflexivity|]. split; [reflexivity|]. repeat constructor.
Qed.

(** ** The request *)

(** C5: when the path opens, the events of [classify_bird] are the open,
    one request and the close; the request names the model
    [gpt-4-turbo], carries the system prompt and the user prompt in this
    order and attaches the file object just opened under the name
    ["image"].  When the path does not open no request is made. *)
Theorem classify_bird_request_shape (w : World) (path : string) :
  let w' := snd (classify_bird create path w) in
  match fs w path with
  | Readable data =>
      let image_file := mkFile (fresh (open_fds w)) path "rb" data in
      let request :=
        mkRequest "gpt-4-turbo"
          [ mkMessage "system" "You are a bird species identification assistant.";
            mkMessage "user" "Identify the bird in this image." ]
          [ ("image", image_file) ] in
      emitted w w' = [ EvOpen image_file;
                       EvSubmit (mkSubmission (api_key w) request);
                       EvClose (fo_fd image_file) ]
      /\ submissions (emitted w w') = [ mkSubmission (api_key w) request ]
  | _ => submissions (emitted w w') = []
  end.
Proof.
  intros w'. subst w'.
  destruct (fs w path) as [data| | | | | |] eqn:Hfs;
    [rewrite (classify_bird_readable create w path data Hfs); cbn [snd];
     erewrite emitted_app by reflexivity; split; reflexivity
    |rewrite classify_bird_unreadable by (now rewrite Hfs);
     erewrite emitted_app by reflexivity; reflexivity ..].
Qed.

(** ** Repeated calls *)

(** C6: against a deterministic service, a second call of
    [classify_bird] on the same path, made in the world the first call
    left behind, has the result of the first. *)
Theorem classify_bird_twice_same_result (w : World) (path : string) :
  deterministic create ->
  fst (classify_bird create path (snd (classify_bird create path w)))
  = fst (classify_bird create path w).
Proof.
  intros Hdet.
  destruct (readable (fs w path)) eqn:Hr.
  - destruct (readable_inv _ Hr) as [data Hfs].
    rewrite (classify_bird_readable create w path data Hfs). cbn [snd fst].
    match goal with
    | |- fst (classify_bird _ _ ?w1) = _ =>
        rewrite (classify_bird_readable create w1 path data Hfs)
    end.
    cbn [fst]. f_equal. apply Hdet.
  - rewrite (classify_bird_unreadable create w path Hr). cbn [snd fst].
    match goal with
    | |- fst (classify_bird _ _ ?w1) = _ =>
        rewrite (classify_bird_unreadable create w1 path Hr)
    end.
    reflexivity.
Qed.

(** ** The module body *)

(** C7, as amended: when the call returns the string [text], the module
    body ends normally and writes to standard output exactly
    [Identified Bird: ], [text] and a line feed; that is one line when
    [text] holds no line feed. *)
Theorem module_prints_identified_bird (name : string) (w : World) (text : string) :
  fst (classify_bird create "bird_image.jpg" (keyed w)) = Return (PStr text) ->
  let w' := snd (module_body create repr name w) in
  fst (module_body create repr name w) = Return tt
  /\ stdout_of (emitted w w') = "Identified Bird: " +:+ text +:+ line_feed
  /\ (if has_newline text then True
      else lines (stdout_of (emitted w w')) = ["Identified Bird: " +:+ text]).
Proof.
  intros Hret w'. subst w'.
  destruct (module_body_events name w) as (evs & Hev & _ & _ & _ & Hout & _).
  cbn zeta in Hev. rewrite Hret in Hev. rewrite Hev.
  rewrite module_body_run.
  destruct (classify_bird create "bird_image.jpg" (keyed w)) as [r w2].
  cbn [fst] in Hret. subst r. cbn [fst].
  cbn [stdout_of]. rewrite stdout_of_app, Hout. cbn [stdout_of py_str].
  change ("" +:+ ?x) with x. rewrite append_empty_r.
  split; [reflexivity|]. split; [reflexivity|].
  destruct (has_newline text) eqn:Hnl; [exact I|].
  rewrite <- append_assoc. apply lines_single.
  rewrite has_newline_app, Hnl. reflexivity.
Qed.

(** C8: [classify_bird] never assigns the key, and every request it
    sends carries [openai.api_key] as it stands; the module body assigns
    the key once, as its first event, to the literal
    ["your_openai_api_key"], every request it sends carries that value,
    and the key still has it at the end. *)
Theorem requests_carry_module_api_key (name : string) (w : World) (path : string) :
  let w1 := snd (classify_bird create path w) in
  let w2 := snd (module_body create repr name w) in
  (api_key w1 = api_key w
   /\ key_assignments (emitted w w1) = []
   /\ Forall (fun s => sub_key s = api_key w) (submissions (emitted w w1)))
  /\ (api_key w2 = Some "your_openai_api_key"
      /\ head (emitted w w2) = Some (EvSetKey "your_openai_api_key")
      /\ key_assignments (emitted w w2) = ["your_openai_api_key"]
      /\ Forall (fun s => sub_key s = Some "your_openai_api_key")
                (submissions (emitted w w2))).
Proof.
  intros w1 w2. subst w1 w2. split.
  - destruct (classify_bird_events w path)
      as (evs & Htr & _ & Hkey & _ & _ & Hassign & _ & _ & _ & Hsub).
    rewrite (emitted_app _ _ _ Htr). auto.
  - destruct (module_body_events name w)
      as (evs & Hev & Hkey & _ & Hassign & _ & _ & Hsub).
    cbn zeta in Hev, Hkey. rewrite Hev.
    split; [exact Hkey|]. split; [reflexivity|].
    unfold key_assignments, submissions in *. cbn [omap list_omap].
    rewrite !omap_app, Hassign.
    destruct (fst (classify_bird create "bird_image.jpg" (keyed w)));
      cbn [omap list_omap app]; rewrite app_nil_r; auto.
Qed.

(** Lines 3-18 under the client library are [module_body]. *)
Lemma load_file_client_library (name : string) :
  load_file create repr ClientLibrary name = module_body create repr name.
Proof. reflexivity. Qed.

(** Lines 5-15 when [openai] names this file: the path is opened, the
    lookup of [ChatCompletion] fails, the file is closed. *)
Lemma classify_bird_bound_this_file (w : World) (path : string) :
  classify_bird_bound create ThisFile path w =
    match fs w path with
    | Readable data =>
        (Raise (AttributeError "ChatCompletion"),
         mkWorld (disk w) (api_key w) (open_fds w)
           (trace w ++ [ EvOpen (opened_file w path data);
                         EvClose (fo_fd (opened_file w path data)) ]))
    | entry =>
        (Raise (open_error entry path), log (EvOpenFail path (open_error entry path)) w)
    end.
Proof.
  unfold classify_bird_bound, bind, with_open_rb, open_rb.
  destruct (fs w path) as [data| | | | | |]; try reflexivity.
  unfold call_create, raise, file_close. cbn [trace api_key disk open_fds].
  rewrite close_after_open by apply is_fresh.
  rewrite <- app_assoc. reflexivity.
Qed.

(** Lines 3-18 when [openai] names this file never end normally. *)
Lemma file_body_this_file (name : string) (w : World) :
  let w' := snd (file_body create repr ThisFile name w) in
  fst (file_body create repr ThisFile name w)
  = Raise (match fs w "bird_image.jpg" with
           | Readable _ => AttributeError "ChatCompletion"
           | entry => open_error entry "bird_image.jpg"
           end)
  /\ emitted w w'
     = EvSetKey "your_openai_api_key"
       :: match fs w "bird_image.jpg" with
          | Readable data =>
              [ EvOpen (opened_file w "bird_image.jpg" data);
                EvClose (fo_fd (opened_file w "bird_image.jpg" data)) ]
          | entry =>
              [ EvOpenFail "bird_image.jpg" (open_error entry "bird_image.jpg") ]
          end.
Proof.
  intros w'. subst w'. unfold file_body, bind. cbn [set_api_key].
  rewrite classify_bird_bound_this_file.
  change (fs (mkWorld (disk w) (Some "your_openai_api_key") (open_fds w)
                      (trace w ++ [EvSetKey "your_openai_api_key"])))
    with (fs w).
  destruct (fs w "bird_image.jpg") as [data| | | | | |]; cbn [fst snd];
    (split; [reflexivity|]); apply emitted_app; unfold log; cbn [trace];
    rewrite <- app_assoc; reflexivity.
Qed.

(** C10: loaded as the file it is, [openai.py] in a directory that comes
    first on the search path, the script never reaches the service.
    Line 1 binds [openai] to the file itself, so after the key assignment
    and the one attempt to open ["bird_image.jpg"] the lookup of
    [openai.ChatCompletion] raises [AttributeError] (or [open] has raised
    already): no request is sent and nothing is printed, under any
    [__name__]. *)
Theorem load_file_binds_itself (name : string) (w : World) :
  let w' := snd (load_file create repr ThisFile name w) in
  fst (load_file create repr ThisFile name w)
  = Raise (match fs w "bird_image.jpg" with
           | Readable _ => AttributeError "ChatCompletion"
           | entry => open_error entry "bird_image.jpg"
           end)
  /\ key_assignments (emitted w w') = ["your_openai_api_key"]
  /\ open_attempts (emitted w w') = ["bird_image.jpg"]
  /\ submissions (emitted w w') = []
  /\ stdout_of (emitted w w') = "".
Proof.
  intros w'. subst w'.
  assert (Hload : load_file create repr ThisFile name w
                  = file_body create repr ThisFile "openai" w).
  { unfold load_file. destruct (String.eqb name "openai") eqn:Hname.
    - reflexivity.
    - unfold bind. destruct (file_body_this_file "openai" w) as [Hres _].
      destruct (file_body create repr ThisFile "openai" w) as [[[]|e] w1];
        [discriminate Hres|reflexivity]. }
  rewrite Hload.
  destruct (file_body_this_file "openai" w) as [Hres Hev].
  cbn zeta in Hev. rewrite Hres, Hev.
  split; [reflexivity|].
  destruct (fs w "bird_image.jpg"); repeat split; reflexivity.
Qed.

End Claims.

(** ** The theorems at sample inputs *)

(** The first of two choices is the one returned. *)
Lemma classify_bird_returns_first_content_witness :
  fst (classify_bird
         (stub_reply (reply_with [choice_with "Northern Cardinal"; choice_with "Blue Jay"]))
         "bird_image.jpg" sample_world)
  = Return (PStr "Northern Cardinal").
Proof.
  apply (classify_bird_returns_first_content
           (stub_reply (reply_with [choice_with "Northern Cardinal"; choice_with "Blue Jay"]))
           sample_world "bird_image.jpg" sample_bytes
           (reply_with [choice_with "Northern Cardinal"; choice_with "Blue Jay"])
           (choice_with "Northern Cardinal")
           (PDict [("role", PStr "assistant"); ("content", PStr "Northern Cardinal")])
           [choice_with "Blue Jay"] "Northern Cardinal");
    reflexivity.
Defined.

Lemma classify_bird_no_choices_witness :
  fst (classify_bird (stub_reply (reply_with [])) "bird_image.jpg" sample_world)
  = Raise IndexError
  /\ error_kind IndexError = MalformedResponse.
Proof.
  apply (classify_bird_no_choices (stub_reply (reply_with []))
           sample_world "bird_image.jpg" sample_bytes (reply_with []));
    reflexivity.
Defined.

Lemma classify_bird_missing_message_or_content_witness :
  exists e,
    fst (classify_bird (stub_reply (reply_with [PDict [("index", PInt 0)]]))
           "bird_image.jpg" sample_world) = Raise e
    /\ (e = KeyError (KStr "message")
        \/ e = KeyError (KStr "content")
        \/ e = TypeError).
Proof.
  apply (classify_bird_missing_message_or_content
           (stub_reply (reply_with [PDict [("index", PInt 0)]]))
           sample_world "bird_image.jpg" sample_bytes
           (reply_with [PDict [("index", PInt 0)]])
           (PDict [("index", PInt 0)]) []);
    [reflexivity | reflexivity | reflexivity | left; reflexivity].
Defined.



Lemma classify_bird_twice_same_result_witness :
  fst (classify_bird (stub_reply (reply_with [choice_with "Northern Cardinal"]))
         "bird_image.jpg"
         (snd (classify_bird (stub_reply (reply_with [choice_with "Northern Cardinal"]))
                 "bird_image.jpg" sample_world)))
  = fst (classify_bird (stub_reply (reply_with [choice_with "Northern Cardinal"]))
           "bird_image.jpg" sample_world).
Proof.
  apply (classify_bird_twice_same_result
           (stub_reply (reply_with [choice_with "Northern Cardinal"]))
           sample_world "bird_image.jpg").
  intros seen seen' key req. reflexivity.
Defined.

(** Determinism of the service is needed: a service that remembers what
    it has seen can answer the second call differently. *)
Example moody_service_differs :
  fst (classify_bird stub_moody "bird_image.jpg"
         (snd (classify_bird stub_moody "bird_image.jpg" sample_world)))
  <> fst (classify_bird stub_moody "bird_image.jpg" sample_world).
Proof. vm_compute. discriminate. Qed.

Lemma module_prints_identified_bird_witness :
  fst (module_body (stub_reply (reply_with [choice_with "Robin"])) sample_repr
         "__main__" sample_world) = Return tt
  /\ stdout_of
       (emitted sample_world
          (snd (module_body (stub_reply (reply_with [choice_with "Robin"])) sample_repr
                  "__main__" sample_world)))
     = "Identified Bird: " +:+ "Robin" +:+ line_feed
  /\ (if has_newline "Robin" then True
      else lines
             (stdout_of
                (emitted sample_world
                   (snd (module_body (stub_reply (reply_with [choice_with "Robin"]))
                           sample_repr "__main__" sample_world))))
           = ["Identified Bird: " +:+ "Robin"]).
Proof.
  apply (module_prints_identified_bird
           (stub_reply (reply_with [choice_with "Robin"])) sample_repr
           "__main__" sample_world "Robin").
  vm_compute. reflexivity.
Defined.

(** C7 as stated fails: a returned text that holds a line feed is printed
    as it is, so the output is more than one line.  With the text
    [two_line_text] the output has the two lines [Identified Bird: Robin]
    and [or Wren]. *)
Lemma print_one_line_counterexample :
  ~ (forall (create : list Submission -> option string -> ChatRequest -> Reply)
            (repr : PyVal -> string) (name : string) (w : World) (text : string),
        fst (classify_bird create "bird_image.jpg" (keyed w)) = Return (PStr text) ->
        lines (stdout_of (emitted w (snd (module_body create repr name w))))
        = ["Identified Bird: " +:+ text]).
Proof.
  intros Hclaim.
  specialize (Hclaim (stub_reply (reply_with [choice_with two_line_text]))
                sample_repr "__main__" sample_world two_line_text).
  assert (Hret : fst (classify_bird (stub_reply (reply_with [choice_with two_line_text]))
                        "bird_image.jpg" (keyed sample_world))
                 = Return (PStr two_line_text)) by (vm_compute; reflexivity).
  specialize (Hclaim Hret). vm_compute in Hclaim. discriminate Hclaim.
Qed.

(** The script run from its own directory, with the image in place and a
    service that would answer: the run stops at the lookup of
    [ChatCompletion], with the file opened and closed and nothing sent. *)
Example script_run_stops_at_the_lookup :
  let run := load_file (stub_reply (reply_with [choice_with "Northern Cardinal"]))
               sample_repr ThisFile "__main__" sample_world in
  fst run = Raise (AttributeError "ChatCompletion")
  /\ emitted sample_world (snd run)
     = [ EvSetKey "your_openai_api_key";
         EvOpen (mkFile 0 "bird_image.jpg" "rb" sample_bytes);
         EvClose 0 ].
Proof. vm_compute. split; reflexivity. Qed.

(** The same run with [openai] bound to the client library prints the
    answer. *)
Example library_run_prints_the_answer :
  let run := load_file (stub_reply (reply_with [choice_with "Northern Cardinal"]))
               sample_repr ClientLibrary "__main__" sample_world in
  fst run = Return tt
  /\ stdout_of (emitted sample_world (snd run))
     = "Identified Bird: Northern Cardinal" +:+ line_feed.
Proof. vm_compute. split; reflexivity. Qed.

(** * Further behaviour of the script *)

(** The subscripts raise nothing but [KeyError], [IndexError] and
    [TypeError]. *)
Lemma py_getitem_error_kind (v : PyVal) (k : Key) (e : PyExn) :
  py_getitem v k = Raise e -> error_kind e = MalformedResponse.
Proof.
  destruct v as [| | |s|items|fields], k as [name|i]; cbn [py_getitem];
    try (intros [= <-]; reflexivity).
  - destruct (py_index _ i); intros [= <-]; reflexivity.
  - destruct (py_index items i); intros [= <-]; reflexivity.
  - destruct (dict_get fields name); intros [= <-]; reflexivity.
Qed.

Lemma extract_error_kind (response : PyVal) (e : PyExn) :
  extract response = Raise e -> error_kind e = MalformedResponse.
Proof.
  unfold extract.
  destruct (py_getitem response (KStr "choices")) as [choices|e1] eqn:E1;
    [|intros [= <-]; eauto using py_getitem_error_kind].
  destruct (py_getitem choices (KInt 0)) as [first|e2] eqn:E2;
    [|intros [= <-]; eauto using py_getitem_error_kind].
  destruct (py_getitem first (KStr "message")) as [message|e3] eqn:E3;
    [|intros [= <-]; eauto using py_getitem_error_kind].
  apply py_getitem_error_kind.
Qed.

Section Coverage.

Variable create : list Submission -> option string -> ChatRequest -> Reply.
Variable repr : PyVal -> string.

(** The module body when the image opens: the key assignment, the open,
    one request under the literal key, the close and, when the call
    returned, the printed line. *)
Lemma module_body_readable (name : string) (w : World) (data : list Byte.byte) :
  fs w "bird_image.jpg" = Readable data ->
  let f := opened_file w "bird_image.jpg" data in
  let out := outcome_of (create (submissions (trace w)) (Some "your_openai_api_key")
                                (bird_request f)) in
  fst (module_body create repr name w)
  = match out with Return _ => Return tt | Raise e => Raise e end
  /\ emitted w (snd (module_body create repr name w))
     = [ EvSetKey "your_openai_api_key";
         EvOpen f;
         EvSubmit (mkSubmission (Some "your_openai_api_key") (bird_request f));
         EvClose (fo_fd f) ]
       ++ match out with
          | Return v =>
              [EvWrite ("Identified Bird: " +:+ py_str repr v +:+ line_feed)]
          | Raise _ => []
          end.
Proof.
  intros Hfs f out. subst f out.
  rewrite module_body_run.
  rewrite (classify_bird_readable create (keyed w) "bird_image.jpg" data Hfs).
  unfold keyed. cbn [set_api_key snd trace api_key disk open_fds].
  rewrite submissions_app. cbn [submissions omap list_omap]. rewrite app_nil_r.
  change (opened_file (mkWorld (disk w) (Some "your_openai_api_key") (open_fds w)
                               (trace w ++ [EvSetKey "your_openai_api_key"]))
                      "bird_image.jpg" data)
    with (opened_file w "bird_image.jpg" data).
  destruct (outcome_of _) as [v|e]; cbn [fst snd]; (split; [reflexivity|]);
    apply emitted_app; unfold log; cbn [trace]; rewrite <- !app_assoc; reflexivity.
Qed.

(** ** Failures after the file has opened *)

(** X1: when the file opens and the client library raises, [classify_bird]
    raises that exception as it is, after one request and with the file
    closed again. *)
Theorem classify_bird_service_failure
  (w : World) (path : string) (data : list Byte.byte) (e : OpenAIError) :
  fs w path = Readable data ->
  create (submissions (trace w)) (api_key w)
         (bird_request (opened_file w path data)) = Failed e ->
  let w' := snd (classify_bird create path w) in
  fst (classify_bird create path w) = Raise (OpenAIException e)
  /\ emitted w w' = [ EvOpen (opened_file w path data);
                      EvSubmit (sent_request w path data);
                      EvClose (fo_fd (opened_file w path data)) ]
  /\ open_fds w' = open_fds w.
Proof.
  intros Hfs Hreply w'. subst w'.
  rewrite (classify_bird_readable create w path data Hfs). cbn [fst snd open_fds].
  rewrite Hreply. split; [reflexivity|]. split; [|reflexivity].
  apply emitted_app. reflexivity.
Qed.

(** X2: a response without a ["choices"] field makes [classify_bird]
    raise: [KeyError] for a dictionary, [TypeError] for any other value. *)
Theorem classify_bird_response_without_choices
  (w : World) (path : string) (data : list Byte.byte) (response : PyVal) :
  fs w path = Readable data ->
  create (submissions (trace w)) (api_key w)
         (bird_request (opened_file w path data)) = Replied response ->
  has_field response "choices" = false ->
  fst (classify_bird create path w)
  = Raise (match response with
           | PDict _ => KeyError (KStr "choices")
           | _ => TypeError
           end).
Proof.
  intros Hfs Hreply Hlack.
  rewrite (classify_bird_readable create w path data Hfs). cbn [fst].
  rewrite Hreply. unfold outcome_of, extract.
  destruct response as [| | | |items|fields]; try reflexivity.
  cbn [has_field] in Hlack. apply bool_decide_eq_false in Hlack.
  cbn [py_getitem]. destruct (dict_get fields "choices") eqn:E; [|reflexivity].
  destruct Hlack. eauto.
Qed.

(** X3: for a JSON-shaped response, when ["choices"] holds something
    that is not a list, [classify_bird] raises: a dictionary keyed by
    strings has no key [0], a string gives at best one character, which
    has no fields, and null, booleans and integers cannot be
    subscripted. *)
Theorem classify_bird_choices_not_a_list
  (w : World) (path : string) (data : list Byte.byte) (response choices : PyVal) :
  fs w path = Readable data ->
  create (submissions (trace w)) (api_key w)
         (bird_request (opened_file w path data)) = Replied response ->
  py_getitem response (KStr "choices") = Return choices ->
  is_list choices = false ->
  fst (classify_bird create path w)
  = Raise (match choices with
           | PDict _ => KeyError (KInt 0)
           | PStr EmptyString => IndexError
           | _ => TypeError
           end).
Proof.
  intros Hfs Hreply Hchoices Hlist.
  rewrite (classify_bird_readable create w path data Hfs). cbn [fst].
  rewrite Hreply. unfold outcome_of, extract. rewrite Hchoices.
  destruct choices as [| | |s|items|fields]; try reflexivity; [|discriminate].
  destruct s as [|c s]; reflexivity.
Qed.

(** X4: the value under ["content"] is returned without any check of its
    type: whatever it is, a string or not, [classify_bird] returns it. *)
Theorem classify_bird_returns_content_unchecked
  (w : World) (path : string) (data : list Byte.byte)
  (response first message v : PyVal) (rest : list PyVal) :
  fs w path = Readable data ->
  create (submissions (trace w)) (api_key w)
         (bird_request (opened_file w path data)) = Replied response ->
  py_getitem response (KStr "choices") = Return (PList (first :: rest)) ->
  py_getitem first (KStr "message") = Return message ->
  py_getitem message (KStr "content") = Return v ->
  fst (classify_bird create path w) = Return v.
Proof.
  intros Hfs Hreply Hchoices Hmessage Hcontent.
  rewrite (classify_bird_readable create w path data Hfs). cbn [fst].
  rewrite Hreply. unfold outcome_of, extract.
  rewrite Hchoices. cbn [py_getitem]. rewrite getitem_first.
  rewrite Hmessage. exact Hcontent.
Qed.

(** ** What a call does and does not do *)

(** X5: whatever happens, [classify_bird] tries to open the path it was
    given once and no other path, writes nothing to standard output and
    leaves the files as they were. *)
Theorem classify_bird_single_attempt (w : World) (path : string) :
  let w' := snd (classify_bird create path w) in
  open_attempts (emitted w w') = [path]
  /\ stdout_of (emitted w w') = ""
  /\ fs w' = fs w.
Proof.
  intros w'. subst w'.
  destruct (classify_bird_events create w path)
    as (evs & Htr & Hfs & _ & _ & Hopen & _ & Hout & _).
  cbn zeta in Htr, Hfs. rewrite (emitted_app _ _ _ Htr). auto.
Qed.


(** X7: nothing is cached.  Two calls in a row on a path that opens send
    two requests, the second equal to the first. *)
Theorem classify_bird_twice_two_requests
  (w : World) (path : string) (data : list Byte.byte) :
  fs w path = Readable data ->
  let w1 := snd (classify_bird create path w) in
  let w2 := snd (classify_bird create path w1) in
  submissions (emitted w w2) = [sent_request w path data; sent_request w path data].
Proof.
  intros Hfs w1 w2. subst w2 w1.
  rewrite (classify_bird_readable create w path data Hfs). cbn [snd].
  match goal with
  | |- context [classify_bird _ _ ?w1] =>
      rewrite (classify_bird_readable create w1 path data Hfs)
  end.
  cbn [snd trace api_key]. erewrite emitted_app by (rewrite <- app_assoc; reflexivity).
  reflexivity.
Qed.

(** ** The module body on each outcome of the call *)

(** X8: when ["bird_image.jpg"] does not open, the module body raises the
    error of [open]; the key has been assigned, nothing else has happened:
    no request, nothing printed. *)
Theorem module_body_unreadable_image (name : string) (w : World) :
  readable (fs w "bird_image.jpg") = false ->
  let w' := snd (module_body create repr name w) in
  let e := open_error (fs w "bird_image.jpg") "bird_image.jpg" in
  fst (module_body create repr name w) = Raise e
  /\ emitted w w' = [EvSetKey "your_openai_api_key"; EvOpenFail "bird_image.jpg" e]
  /\ api_key w' = Some "your_openai_api_key".
Proof.
  intros Hr w' e. subst w' e.
  rewrite module_body_run.
  rewrite (classify_bird_unreadable create (keyed w) "bird_image.jpg" Hr).
  cbn [fst snd]. split; [reflexivity|]. split; [|reflexivity].
  apply emitted_app. unfold log, keyed. cbn [set_api_key snd trace].
  rewrite <- app_assoc. reflexivity.
Qed.

(** X9: when the image opens and the client library raises, the module
    body raises that exception; one request has gone out under the
    literal key, the file is closed and nothing is printed. *)
Theorem module_body_service_failure
  (name : string) (w : World) (data : list Byte.byte) (e : OpenAIError) :
  fs w "bird_image.jpg" = Readable data ->
  create (submissions (trace w)) (Some "your_openai_api_key")
         (bird_request (opened_file w "bird_image.jpg" data)) = Failed e ->
  let w' := snd (module_body create repr name w) in
  let f := opened_file w "bird_image.jpg" data in
  fst (module_body create repr name w) = Raise (OpenAIException e)
  /\ emitted w w'
     = [ EvSetKey "your_openai_api_key";
         EvOpen f;
         EvSubmit (mkSubmission (Some "your_openai_api_key") (bird_request f));
         EvClose (fo_fd f) ]
  /\ stdout_of (emitted w w') = "".
Proof.
  intros Hfs Hreply w' f. subst w' f.
  destruct (module_body_readable name w data Hfs) as [Hres Hev].
  cbn zeta in Hres, Hev. rewrite Hreply in Hres, Hev. cbn [outcome_of] in Hres, Hev.
  rewrite Hres, Hev. repeat split; reflexivity.
Qed.

(** X10: when the service answers and the extraction raises, the module
    body raises the exception of the subscript and prints nothing, though
    the request has been sent. *)
Theorem module_body_extraction_failure
  (name : string) (w : World) (data : list Byte.byte) (response : PyVal) (e : PyExn) :
  fs w "bird_image.jpg" = Readable data ->
  create (submissions (trace w)) (Some "your_openai_api_key")
         (bird_request (opened_file w "bird_image.jpg" data)) = Replied response ->
  extract response = Raise e ->
  let w' := snd (module_body create repr name w) in
  fst (module_body create repr name w) = Raise e
  /\ error_kind e = MalformedResponse
  /\ length (submissions (emitted w w')) = 1
  /\ stdout_of (emitted w w') = "".
Proof.
  intros Hfs Hreply Hextract w'. subst w'.
  destruct (module_body_readable name w data Hfs) as [Hres Hev].
  cbn zeta in Hres, Hev. rewrite Hreply in Hres, Hev. cbn [outcome_of] in Hres, Hev.
  rewrite Hextract in Hres, Hev.
  rewrite Hres, Hev. repeat split; eauto using extract_error_kind.
Qed.

(** X11: when the service answers and the extraction gives [v], the
    events of the module body are, in this order: the key assignment, the
    open, the request under the literal key, the close, and one write of
    [Identified Bird: ], the [str] of [v] and a line feed.  The line is
    printed after the file has been closed. *)
Theorem module_body_success_trace
  (name : string) (w : World) (data : list Byte.byte) (response v : PyVal) :
  fs w "bird_image.jpg" = Readable data ->
  create (submissions (trace w)) (Some "your_openai_api_key")
         (bird_request (opened_file w "bird_image.jpg" data)) = Replied response ->
  extract response = Return v ->
  let w' := snd (module_body create repr name w) in
  let f := opened_file w "bird_image.jpg" data in
  fst (module_body create repr name w) = Return tt
  /\ emitted w w'
     = [ EvSetKey "your_openai_api_key";
         EvOpen f;
         EvSubmit (mkSubmission (Some "your_openai_api_key") (bird_request f));
         EvClose (fo_fd f);
         EvWrite ("Identified Bird: " +:+ py_str repr v +:+ line_feed) ]
  /\ open_fds w' = open_fds w.
Proof.
  intros Hfs Hreply Hextract w' f. subst w' f.
  destruct (module_body_readable name w data Hfs) as [Hres Hev].
  cbn zeta in Hres, Hev. rewrite Hreply in Hres, Hev. cbn [outcome_of] in Hres, Hev.
  rewrite Hextract in Hres, Hev.
  rewrite Hres, Hev. split; [reflexivity|]. split; [reflexivity|].
  rewrite module_body_run.
  destruct (classify_bird_events create (keyed w) "bird_image.jpg")
    as (evs & _ & _ & _ & Hfds & _).
  cbn zeta in Hfds.
  destruct (classify_bird create "bird_image.jpg" (keyed w)) as [[v'|e'] w2];
    exact Hfds.
Qed.

End Coverage.

(** ** The further theorems at sample inputs *)

Lemma classify_bird_service_failure_witness :
  fst (classify_bird stub_offline "bird_image.jpg" sample_world)
  = Raise (OpenAIException APIConnectionError).
Proof.
  refine (proj1 (classify_bird_service_failure stub_offline sample_world
                   "bird_image.jpg" sample_bytes APIConnectionError _ _));
    reflexivity.
Defined.

Lemma classify_bird_response_without_choices_witness :
  fst (classify_bird (stub_reply reply_error_object) "bird_image.jpg" sample_world)
  = Raise (KeyError (KStr "choices")).
Proof.
  refine (classify_bird_response_without_choices (stub_reply reply_error_object)
            sample_world "bird_image.jpg" sample_bytes reply_error_object _ _ _);
    reflexivity.
Defined.

Lemma classify_bird_choices_not_a_list_witness :
  fst (classify_bird (stub_reply reply_keyed_choices) "bird_image.jpg" sample_world)
  = Raise (KeyError (KInt 0)).
Proof.
  refine (classify_bird_choices_not_a_list (stub_reply reply_keyed_choices)
            sample_world "bird_image.jpg" sample_bytes reply_keyed_choices
            (PDict [("0", choice_with "Northern Cardinal")]) _ _ _ _);
    reflexivity.
Defined.

Lemma classify_bird_returns_content_unchecked_witness :
  fst (classify_bird (stub_reply reply_null_content) "bird_image.jpg" sample_world)
  = Return PNone.
Proof.
  refine (classify_bird_returns_content_unchecked (stub_reply reply_null_content)
            sample_world "bird_image.jpg" sample_bytes reply_null_content
            (PDict [("message", PDict [("role", PStr "assistant"); ("content", PNone)])])
            (PDict [("role", PStr "assistant"); ("content", PNone)])
            PNone [] _ _ _ _ _);
    reflexivity.
Defined.

Lemma classify_bird_twice_two_requests_witness :
  length
    (submissions
       (emitted sample_world
          (snd (classify_bird stub_offline "bird_image.jpg"
                  (snd (classify_bird stub_offline "bird_image.jpg" sample_world))))))
  = 2.
Proof.
  rewrite (classify_bird_twice_two_requests stub_offline sample_world
             "bird_image.jpg" sample_bytes eq_refl).
  reflexivity.
Defined.

Lemma module_body_unreadable_image_witness :
  fst (module_body stub_offline sample_repr "__main__" bare_world)
  = Raise (FileNotFoundError "bird_image.jpg").
Proof.
  refine (proj1 (module_body_unreadable_image stub_offline sample_repr
                   "__main__" bare_world _)).
  reflexivity.
Defined.

Lemma module_body_service_failure_witness :
  fst (module_body stub_offline sample_repr "__main__" sample_world)
  = Raise (OpenAIException APIConnectionError).
Proof.
  refine (proj1 (module_body_service_failure stub_offline sample_repr
                   "__main__" sample_world sample_bytes APIConnectionError _ _));
    reflexivity.
Defined.

Lemma module_body_extraction_failure_witness :
  fst (module_body (stub_reply (reply_with [])) sample_repr "__main__" sample_world)
  = Raise IndexError.
Proof.
  refine (proj1 (module_body_extraction_failure (stub_reply (reply_with []))
                   sample_repr "__main__" sample_world sample_bytes
                   (reply_with []) IndexError _ _ _));
    reflexivity.
Defined.

(** A null content is printed as [None]. *)
Lemma module_body_success_trace_witness :
  stdout_of
    (emitted sample_world
       (snd (module_body (stub_reply reply_null_content) sample_repr
               "__main__" sample_world)))
  = "Identified Bird: None" +:+ line_feed.
Proof.
  destruct (module_body_success_trace (stub_reply reply_null_content) sample_repr
              "__main__" sample_world sample_bytes reply_null_content PNone
              eq_refl eq_refl eq_refl) as (_ & Hev & _).
  rewrite Hev. reflexivity.
Defined.
